(** * The BPS Kota Medan chat assistant: matching and response engine

    A shallow embedding of the engine of [client/pages/AIAssistant.tsx]:
    the question classifier [detectQuestionType], the dataset matcher
    [detectSpecificKeywords] / [searchBPSData] / [findRelevantData], the
    response composer [generatePersonalizedResponse], the [sources]
    field that [handleSubmit] attaches to the assistant message, and
    the suggestions of [getSuggestions].

    The source file holds two revisions of the page.  The first one
    (lines 1-418) imports the data functions from [@/data/bpsData]; the
    second one (lines 419-1040) defines them in place.  The classifier,
    the matcher and the [sources] expression are the same text in both
    revisions; the composer differs in its literals only, so it is
    embedded twice, in [Module Rev1] and [Module Rev2]. *)

From Stdlib Require Import String Ascii DecimalString.
From Stdlib Require Import NArith ZArith List Bool Lia.
Import ListNotations.

(** ** JavaScript strings

    A JS string is a sequence of UTF-16 code units.  Literals of the
    source are written as Rocq strings (UTF-8 bytes, as in the source
    file) and converted by [str]. *)

Module JS.

Definition codeUnit := N.
Definition jsstring := list codeUnit.

(** UTF-8 bytes to code points. *)
Fixpoint utf8_points (bs : list N) : list N :=
  match bs with
  | [] => []
  | b0 :: r0 =>
    if (b0 <? 0x80)%N then b0 :: utf8_points r0
    else if (b0 <? 0xE0)%N then
      match r0 with
      | b1 :: r1 => ((b0 mod 32) * 64 + b1 mod 64)%N :: utf8_points r1
      | _ => [0xFFFD%N]
      end
    else if (b0 <? 0xF0)%N then
      match r0 with
      | b1 :: b2 :: r2 =>
        ((b0 mod 16) * 4096 + (b1 mod 64) * 64 + b2 mod 64)%N :: utf8_points r2
      | _ => [0xFFFD%N]
      end
    else
      match r0 with
      | b1 :: b2 :: b3 :: r3 =>
        ((b0 mod 8) * 262144 + (b1 mod 64) * 4096 + (b2 mod 64) * 64 + b3 mod 64)%N
          :: utf8_points r3
      | _ => [0xFFFD%N]
      end
  end.

(** A code point as one code unit, or as a surrogate pair. *)
Definition utf16_units (cp : N) : list codeUnit :=
  if (cp <? 0x10000)%N then [cp]
  else let v := (cp - 0x10000)%N in [(0xD800 + v / 1024)%N; (0xDC00 + v mod 1024)%N].

(** The JS string denoted by a literal of the source. *)
Definition str (s : string) : jsstring :=
  flat_map utf16_units (utf8_points (map N_of_ascii (list_ascii_of_string s))).

Definition newline : jsstring := [10%N].
Definition dquote : jsstring := [34%N].
Definition space : codeUnit := 32%N.

(** [a === b] on strings. *)
Fixpoint streq (a b : jsstring) : bool :=
  match a, b with
  | [], [] => true
  | x :: a', y :: b' => (x =? y)%N && streq a' b'
  | _, _ => false
  end.

(** [s.startsWith(k)]; the helper of [includes]. *)
Fixpoint startsWith (s k : jsstring) : bool :=
  match k, s with
  | [], _ => true
  | _ :: _, [] => false
  | y :: k', x :: s' => (x =? y)%N && startsWith s' k'
  end.

(** [s.includes(k)]: [k] occurs in [s] as a run of consecutive code units. *)
Fixpoint includes (s k : jsstring) : bool :=
  startsWith s k ||
  match s with
  | [] => false
  | _ :: s' => includes s' k
  end.

(** [s.split(sep)] for a separator of one code unit: the pieces between
    the occurrences of [sep], empty pieces included; never the empty
    array. *)
Fixpoint split (sep : codeUnit) (s : jsstring) : list jsstring :=
  match s with
  | [] => [[]]
  | c :: s' =>
    if (c =? sep)%N then [] :: split sep s'
    else match split sep s' with
         | w :: ws => (c :: w) :: ws
         | [] => [[c]]
         end
  end.

(** [a.slice(0, n)]. *)
Definition slice0 {A} (n : nat) (a : list A) : list A := firstn n a.

(** [a.findIndex(p)]: the first index whose element satisfies [p], or -1. *)
Fixpoint findIndex {A} (p : A -> bool) (a : list A) : Z :=
  match a with
  | [] => (-1)%Z
  | x :: a' =>
    if p x then 0%Z
    else let i := findIndex p a' in if (i <? 0)%Z then (-1)%Z else (i + 1)%Z
  end.

(** [self.filter((item, index, self) => p item index self)]. *)
Fixpoint filter_from {A} (p : A -> nat -> list A -> bool) (self : list A)
    (index : nat) (rest : list A) : list A :=
  match rest with
  | [] => []
  | item :: rest' =>
    if p item index self then item :: filter_from p self (S index) rest'
    else filter_from p self (S index) rest'
  end.

Definition filteri {A} (p : A -> nat -> list A -> bool) (self : list A) : list A :=
  filter_from p self 0 self.

(** [a.forEach((x, index) => ...)] visits the pairs of [entries a] in order. *)
Definition entries {A} (a : list A) : list (nat * A) :=
  combine (seq 0 (length a)) a.

(** [`${n}`] for a non-negative integer [n]. *)
Definition numberToString (n : nat) : jsstring :=
  str (NilEmpty.string_of_uint (Nat.to_uint n)).

(** [String.prototype.toLowerCase].  The engine is written over any
    lowering function, and what is stated of every input is stated over
    every such function.  [ascii_lowering] below is the builtin on
    strings of ASCII code units only (it leaves every other code unit as
    it is, where the builtin also lowers the letters outside ASCII); it
    serves for the scenarios, whose inputs are ASCII. *)
Class Lowering := { toLowerCase : jsstring -> jsstring }.

Definition lowerUnit (c : codeUnit) : codeUnit :=
  if ((65 <=? c) && (c <=? 90))%N then (c + 32)%N else c.

#[global] Instance ascii_lowering : Lowering := {| toLowerCase := map lowerUnit |}.

(** What the matcher's per-word phase needs of the builtin: a piece of a
    lowered string, cut at spaces, is already lowered. *)
Class LoweringStable (L : Lowering) : Prop :=
  lowered_word : forall q w, In w (split space (toLowerCase q)) -> toLowerCase w = w.

(** A lowering that also takes the Kelvin sign U+212A to [k], as the
    builtin does. *)
Definition lowerUnitKelvin (c : codeUnit) : codeUnit :=
  if (c =? 0x212A)%N then 0x6B%N else lowerUnit c.

Definition kelvin_lowering : Lowering := {| toLowerCase := map lowerUnitKelvin |}.

(** The text [eKonomi], written with the Kelvin sign. *)
Definition kelvin_question : jsstring := str "e" ++ [0x212A%N] ++ str "onomi".

(** A completed call: a value, or a thrown [TypeError] (reading a
    property of [undefined]). *)
Inductive completion (A : Type) : Type :=
| Return (a : A)
| ThrowTypeError.
Arguments Return {A} a.
Arguments ThrowTypeError {A}.

End JS.
Import JS.

(** ** Data model *)

(** [interface BPSDataItem]. *)
Record BPSDataItem : Type := {
  subject_id : jsstring;
  title : jsstring;
  description : jsstring;
  url : jsstring;
  category : jsstring
}.

(** An element of [Message.sources]: [{ title, url }]. *)
Module Source.
Record t : Type := { title : jsstring; url : jsstring }.
End Source.

(** The intents, as the strings the classifier returns. *)
Definition greeting : jsstring := str "greeting".
Definition thanks : jsstring := str "thanks".
Definition identity : jsstring := str "identity".
Definition list_ : jsstring := str "list".
Definition information : jsstring := str "information".

(** [getCategories]. *)
Definition getCategories : list jsstring := [
  str "Kependudukan dan Demografi";
  str "Ekonomi dan Perdagangan";
  str "Pendidikan dan Kesehatan";
  str "Infrastruktur dan Pembangunan";
  str "Sosial dan Budaya";
  str "Pertanian dan Perikanan";
  str "Industri dan Energi";
  str "Transportasi dan Komunikasi"
].

(** The catalog [mockData] of [detectSpecificKeywords]. *)
Definition pop_001 : BPSDataItem := {|
  subject_id := str "pop_001";
  title := str "Data Penduduk Kota Medan 2024";
  description := str "Statistik lengkap penduduk Kota Medan berdasarkan kelompok usia, jenis kelamin, dan sebaran geografis";
  url := str "https://medankota.bps.go.id/id/statistics-table/2/pop_001";
  category := str "Kependudukan"
|}.

Definition econ_001 : BPSDataItem := {|
  subject_id := str "econ_001";
  title := str "PDRB Kota Medan Atas Dasar Harga Konstan";
  description := str "Produk Domestik Regional Bruto Kota Medan menurut lapangan usaha atas dasar harga konstan";
  url := str "https://medankota.bps.go.id/id/statistics-table/2/econ_001";
  category := str "Ekonomi"
|}.

Definition edu_001 : BPSDataItem := {|
  subject_id := str "edu_001";
  title := str "Statistik Pendidikan Kota Medan";
  description := str "Data lengkap tentang jumlah sekolah, siswa, dan tenaga pendidik di Kota Medan";
  url := str "https://medankota.bps.go.id/id/statistics-table/2/edu_001";
  category := str "Pendidikan"
|}.

Definition mockData : list BPSDataItem := [pop_001; econ_001; edu_001].

(** ** The classifier and the matcher *)

Section Engine.
Context {L : Lowering}.

(** [detectQuestionType] (lines 40-47 and 520-527). *)
Definition detectQuestionType (question : jsstring) : jsstring :=
  let lower := toLowerCase question in
  if includes lower (str "halo") || includes lower (str "hai")
     || includes lower (str "hello") then greeting
  else if includes lower (str "terima kasih") || includes lower (str "thanks") then thanks
  else if includes lower (str "siapa") || includes lower (str "who")
          || includes lower (str "kamu siapa") || includes lower (str "anda siapa")
       then identity
  else if includes lower (str "list") || includes lower (str "daftar")
          || includes lower (str "kategori") then list_
  else information.

(** The predicate of the [filter] in [detectSpecificKeywords]. *)
Definition keywordHit (keywords : jsstring) (item : BPSDataItem) : bool :=
  includes keywords (toLowerCase (category item))
  || (includes keywords (str "populasi") && includes (subject_id item) (str "pop"))
  || (includes keywords (str "ekonomi") && includes (subject_id item) (str "econ"))
  || (includes keywords (str "pendidikan") && includes (subject_id item) (str "edu")).

(** [detectSpecificKeywords] (lines 481-513). *)
Definition detectSpecificKeywords (question : jsstring) : list BPSDataItem :=
  let keywords := toLowerCase question in
  filter (keywordHit keywords) mockData.

(** [searchBPSData] (lines 515-518). *)
Definition searchBPSData (query : jsstring) : list BPSDataItem :=
  detectSpecificKeywords query.

(** The body of the [for (const word of words)] loop of [findRelevantData]. *)
Definition pushWord (partialResults : list BPSDataItem) (word : jsstring)
  : list BPSDataItem :=
  let wordResults := detectSpecificKeywords word in
  if (0 <? length wordResults)%nat then partialResults ++ wordResults
  else let searchResults := searchBPSData word in
       partialResults ++ slice0 2 searchResults.

(** The callback of the duplicate filter: the first index holding the
    item's [subject_id] is the item's own index. *)
Definition firstOfItsId (item : BPSDataItem) (index : nat) (self : list BPSDataItem)
  : bool :=
  (Z.of_nat index =? findIndex (fun t => streq (subject_id t) (subject_id item)) self)%Z.

(** [findRelevantData] (lines 49-73 and 529-560). *)
Definition findRelevantData (question : jsstring) : list BPSDataItem :=
  let keywordResults := detectSpecificKeywords question in
  if (0 <? length keywordResults)%nat then slice0 5 keywordResults
  else
    let results := searchBPSData question in
    if (0 <? length results)%nat then slice0 5 results
    else
      let words :=
        filter (fun word => (2 <? length word)%nat)
               (split space (toLowerCase question)) in
      let partialResults := fold_left pushWord words [] in
      let uniqueResults := filteri firstOfItsId partialResults in
      slice0 3 uniqueResults.

End Engine.

(** ** The [sources] field set by [handleSubmit]

    Lines 252-258 and 913-919; [None] is [undefined]. *)
Definition toSource (item : BPSDataItem) : Source.t :=
  {| Source.title := title item; Source.url := url item |}.

Definition portalSource : Source.t :=
  {| Source.title := str "Portal Resmi BPS Kota Medan";
     Source.url := str "https://medankota.bps.go.id/id" |}.

Definition sources (questionType : jsstring) (relevantData : list BPSDataItem)
  : option (list Source.t) :=
  if (0 <? length relevantData)%nat then Some (map toSource relevantData)
  else if negb (streq questionType greeting) && negb (streq questionType thanks)
          && negb (streq questionType identity) && negb (streq questionType list_)
       then Some [portalSource]
       else None.

(** ** The composer, in the two revisions of the page *)

Module Rev1.
Section Composer.
Context {L : Lowering}.

(** [generatePersonalizedResponse] (lines 75-105). *)
Definition generatePersonalizedResponse (question questionType : jsstring)
    (relevantData : list BPSDataItem) : completion jsstring :=
  let response : jsstring := [] in
  if streq questionType greeting then
    Return (str "Halo juga! 😊 Senang bertemu dengan Anda! Saya siap membantu Anda menemukan data statistik resmi BPS Kota Medan.")
  else if streq questionType thanks then
    Return (str "Sama-sama! 😊 Saya senang bisa membantu. Silakan tanyakan lagi jika ada yang lain!")
  else if streq questionType identity then
    Return (str "Saya adalah AI Data Assistant khusus untuk BPS Kota Medan! 🤖 Saya diciptakan untuk membantu Anda mengakses dan mencari data statistik resmi BPS dengan mudah.")
  else if streq questionType list_ then
    let categories := getCategories in
    let response :=
      str "Tentu! 📋 BPS Kota Medan memiliki " ++ numberToString (length categories)
      ++ str " kategori utama statistik:" ++ newline ++ newline in
    Return (fold_left
              (fun response '(index, category) =>
                 response ++ numberToString (index + 1) ++ str ". " ++ category ++ newline)
              (entries categories) response)
  else if (0 <? length relevantData)%nat then
    match nth_error relevantData 0 with
    | None => ThrowTypeError
    | Some primaryResult =>
      let response :=
        response ++ str "Bagus! Saya menemukan dataset yang relevan: **"
        ++ title primaryResult ++ str "**" ++ newline ++ newline in
      let response := response ++ description primaryResult ++ newline ++ newline in
      let response :=
        if (1 <? length relevantData)%nat
        then response ++ str "Berikut juga beberapa data terkait yang mungkin berguna:" ++ newline
        else response in
      Return (response ++ str "Klik link di bawah untuk melihat data lengkap dari portal resmi BPS. 🔗")
    end
  else
    Return (response ++ str "Maaf, saya tidak menemukan data yang relevan dengan pertanyaan Anda. 🤔 Coba gunakan kata kunci yang lebih spesifik.").

(** The timer callback of [handleSubmit], which runs for every submitted
    input that is not blank: the text typed out and the [sources]
    attached to the assistant message. *)
Definition handleSubmit (currentInput : jsstring)
  : completion jsstring * option (list Source.t) :=
  let questionType := detectQuestionType currentInput in
  let relevantData := findRelevantData currentInput in
  let responseContent :=
    generatePersonalizedResponse currentInput questionType relevantData in
  (responseContent, sources questionType relevantData).

End Composer.
End Rev1.

Module Rev2.
Section Composer.
Context {L : Lowering}.

(** [generatePersonalizedResponse] (lines 562-595). *)
Definition generatePersonalizedResponse (question questionType : jsstring)
    (relevantData : list BPSDataItem) : completion jsstring :=
  let response : jsstring := [] in
  if streq questionType greeting then
    Return (str "Halo juga! ðŸ‘‹ Senang bertemu dengan Anda! Saya siap membantu Anda menemukan data statistik resmi BPS Kota Medan.")
  else if streq questionType thanks then
    Return (str "Sama-sama! ðŸ˜Š Saya senang bisa membantu. Silakan tanyakan lagi jika ada yang lain!")
  else if streq questionType identity then
    Return (str "Saya adalah AI Data Assistant khusus untuk BPS Kota Medan! ðŸ¤– Saya diciptakan untuk membantu Anda mengakses dan mencari data statistik resmi BPS dengan mudah.")
  else if streq questionType list_ then
    let categories := getCategories in
    let response :=
      str "Tentu! ðŸ“Š BPS Kota Medan memiliki " ++ numberToString (length categories)
      ++ str " kategori utama statistik:" ++ newline ++ newline in
    Return (fold_left
              (fun response '(index, category) =>
                 response ++ numberToString (index + 1) ++ str ". " ++ category ++ newline)
              (entries categories) response)
  else if (0 <? length relevantData)%nat then
    match nth_error relevantData 0 with
    | None => ThrowTypeError
    | Some primaryResult =>
      let response :=
        response ++ str "Bagus! Saya menemukan dataset yang relevan: **"
        ++ title primaryResult ++ str "**" ++ newline ++ newline in
      let response := response ++ description primaryResult ++ newline ++ newline in
      let response :=
        if (1 <? length relevantData)%nat
        then response ++ str "Berikut juga beberapa data terkait yang mungkin berguna:" ++ newline
        else response in
      Return (response ++ str "Klik link di bawah untuk melihat data lengkap dari portal resmi BPS. ðŸ”—")
    end
  else
    Return (response ++ str "Maaf, saya tidak menemukan data yang relevan dengan pertanyaan Anda. ðŸ™ Coba gunakan kata kunci yang lebih spesifik seperti " ++ dquote ++ str "populasi" ++ dquote ++ str ", " ++ dquote ++ str "ekonomi" ++ dquote ++ str ", " ++ dquote ++ str "pendidikan" ++ dquote ++ str ", atau " ++ dquote ++ str "infrastruktur" ++ dquote ++ str ".").

(** The timer callback of [handleSubmit], which runs for every submitted
    input that is not blank: the text typed out and the [sources]
    attached to the assistant message. *)
Definition handleSubmit (currentInput : jsstring)
  : completion jsstring * option (list Source.t) :=
  let questionType := detectQuestionType currentInput in
  let relevantData := findRelevantData currentInput in
  let responseContent :=
    generatePersonalizedResponse currentInput questionType relevantData in
  (responseContent, sources questionType relevantData).

End Composer.
End Rev2.

(** ** The suggestions *)

(** A string in a condition: the empty string is falsy. *)
Definition truthy (s : jsstring) : bool :=
  match s with
  | [] => false
  | _ :: _ => true
  end.

(** [baseGeneralSuggestions] of [getSuggestions]. *)
Definition baseGeneralSuggestions : list jsstring := [
  str "Data populasi Kota Medan terbaru";
  str "Statistik ekonomi dan perdagangan";
  str "Data pendidikan dan kesehatan";
  str "Informasi infrastruktur kota";
  str "Tingkat pengangguran di Medan";
  str "Data kemiskinan dan kesejahteraan";
  str "Statistik industri dan UMKM";
  str "Data transportasi dan mobilitas"
].

Section Suggestions.
Context {L : Lowering}.

(** [getSuggestions] (lines 446-468). *)
Definition getSuggestions (input : jsstring) : list jsstring :=
  if negb (truthy input) || (length input <? 2)%nat then
    slice0 6 baseGeneralSuggestions
  else
    let inputLower := toLowerCase input in
    let matchingSuggestions :=
      filter (fun suggestion => includes (toLowerCase suggestion) inputLower)
             baseGeneralSuggestions in
    if (0 <? length matchingSuggestions)%nat then matchingSuggestions
    else slice0 4 baseGeneralSuggestions.


End Suggestions.

(** ** Vocabulary of the statements *)

(** The keyword sets of [detectQuestionType], in the order it tests them. *)
Definition greetingKeywords : list jsstring := [str "halo"; str "hai"; str "hello"].
Definition thanksKeywords : list jsstring := [str "terima kasih"; str "thanks"].
Definition identityKeywords : list jsstring :=
  [str "siapa"; str "who"; str "kamu siapa"; str "anda siapa"].
Definition listKeywords : list jsstring := [str "list"; str "daftar"; str "kategori"].

(** [lower] contains one of the keywords [ks]. *)
Definition mentions (lower : jsstring) (ks : list jsstring) : bool :=
  existsb (includes lower) ks.

(** The classifier as the specification words it: the rules are tried
    in a fixed order, the first one whose keyword set is mentioned gives
    the intent, and [information] is the answer when none is. *)
Definition rules : list (list jsstring * jsstring) :=
  [(greetingKeywords, greeting); (thanksKeywords, thanks);
   (identityKeywords, identity); (listKeywords, list_)].

Fixpoint classify (lower : jsstring) (rs : list (list jsstring * jsstring)) : jsstring :=
  match rs with
  | [] => information
  | (ks, intent) :: rs' => if mentions lower ks then intent else classify lower rs'
  end.

(** The intents answered with a canned text. *)
Definition cannedIntents : list jsstring := [greeting; thanks; identity; list_].

(** A [sources] field that shows no citation: [undefined] or [[]]. *)
Definition noSources (s : option (list Source.t)) : Prop := s = None \/ s = Some [].

(** The lines of a text. *)
Definition lines (text : jsstring) : list jsstring := split 10%N text.

(** The numbered lines of the category list:
    [`${index + 1}. ${category}`] for each category. *)
Definition numberedCategories : list jsstring :=
  map (fun '(index, category) => numberToString (index + 1) ++ str ". " ++ category)
      (entries getCategories).

(** * Properties *)

(** ** The string primitives *)

Module JSFacts.

(** The literals: ASCII text is its bytes, a character outside the
    basic plane is a surrogate pair. *)
Example str_ascii : str "hai" = [104; 97; 105]%N.
Proof. reflexivity. Qed.

Example str_surrogates : str "😊" = [0xD83D; 0xDE0A]%N.
Proof. reflexivity. Qed.

Example str_basic_plane : str "ðŸ™" = [0xF0; 0x178; 0x2122]%N.
Proof. reflexivity. Qed.

Example numberToString_examples :
  numberToString 0 = str "0" /\ numberToString 8 = str "8"
  /\ numberToString 12 = str "12".
Proof. repeat split. Qed.

Example split_example :
  split space (str "a  bc ") = [str "a"; []; str "bc"; []]
  /\ split space [] = [[]].
Proof. split; reflexivity. Qed.

Example toLowerCase_example : toLowerCase (str "Halo, BPS @[`{") = str "halo, bps @[`{".
Proof. reflexivity. Qed.

Example includes_examples :
  includes (str "populasi kota medan") (str "kota") = true
  /\ includes (str "populasi") (str "pop_") = false
  /\ includes [] [] = true.
Proof. repeat split. Qed.

Example findIndex_examples :
  findIndex (N.eqb 3) [1; 3; 3]%N = 1%Z /\ findIndex (N.eqb 4) [1; 3; 3]%N = (-1)%Z.
Proof. split; reflexivity. Qed.

Lemma streq_spec (a b : jsstring) : streq a b = true <-> a = b.
Proof.
  revert b; induction a as [|x a IH]; intros [|y b]; simpl;
    try (split; [discriminate | congruence]); try tauto.
  rewrite andb_true_iff, N.eqb_eq, IH.
  split; [intros [-> ->]; reflexivity | intros [= -> ->]; auto].
Qed.

Lemma streq_refl (a : jsstring) : streq a a = true.
Proof. apply streq_spec; reflexivity. Qed.

Lemma startsWith_spec (s k : jsstring) :
  startsWith s k = true <-> exists b, s = k ++ b.
Proof.
  revert s; induction k as [|y k IH]; intros s.
  - destruct s; simpl; split; eauto.
  - destruct s as [|x s]; simpl.
    + split; [discriminate | intros [b Hb]; discriminate].
    + rewrite andb_true_iff, N.eqb_eq, IH. split.
      * intros [-> [b ->]]. exists b; reflexivity.
      * intros [b [= -> ->]]. eauto.
Qed.

(** [includes] is the occurrence of a factor. *)
Lemma includes_spec (s k : jsstring) :
  includes s k = true <-> exists a b, s = a ++ k ++ b.
Proof.
  induction s as [|x s IH].
  - change (includes [] k) with (startsWith [] k || false).
    rewrite orb_false_r, startsWith_spec. split.
    + intros [b Hb]. exists [], b. exact Hb.
    + intros [a [b Hab]]. symmetry in Hab.
      apply app_eq_nil in Hab as [-> Hkb]. exists b. auto.
  - change (includes (x :: s) k) with (startsWith (x :: s) k || includes s k).
    rewrite orb_true_iff, startsWith_spec, IH. split.
    + intros [[b Hb] | [a [b Hab]]].
      * exists [], b. exact Hb.
      * exists (x :: a), b. simpl. congruence.
    + intros [[|y a] [b Hab]].
      * left. exists b. exact Hab.
      * right. injection Hab as -> ->. eauto.
Qed.

Lemma includes_factor (s w k : jsstring) :
  (exists a b, s = a ++ w ++ b) -> includes w k = true -> includes s k = true.
Proof.
  intros [a [b ->]] Hk. apply includes_spec in Hk as [a' [b' ->]].
  apply includes_spec. exists (a ++ a'), (b' ++ b).
  repeat rewrite <- app_assoc. reflexivity.
Qed.

(** The first piece of [split] is a prefix of the string, the later
    pieces are factors of it. *)
Lemma split_pieces (sep : codeUnit) (s : jsstring) :
  exists w0 ws, split sep s = w0 :: ws
    /\ (exists b, s = w0 ++ b)
    /\ (forall w, In w ws -> exists a b, s = a ++ w ++ b).
Proof.
  induction s as [|c s (w0 & ws & E & [b0 Hpre] & Hrest)]; simpl.
  - exists [], []. repeat split; [exists []; reflexivity | intros w []].
  - destruct (c =? sep)%N.
    + exists [], (split sep s). repeat split; [exists (c :: s); reflexivity|].
      intros w Hin. rewrite E in Hin. destruct Hin as [<- | Hin].
      * exists [c], b0. simpl. congruence.
      * destruct (Hrest _ Hin) as [a [b ->]]. exists (c :: a), b. reflexivity.
    + rewrite E. exists (c :: w0), ws. repeat split.
      * exists b0. simpl. congruence.
      * intros w Hin. destruct (Hrest _ Hin) as [a [b ->]].
        exists (c :: a), b. reflexivity.
Qed.

Lemma split_factor (sep : codeUnit) (s w : jsstring) :
  In w (split sep s) -> exists a b, s = a ++ w ++ b.
Proof.
  destruct (split_pieces sep s) as (w0 & ws & -> & [b0 Hpre] & Hrest).
  intros [<- | Hin]; [exists [], b0; exact Hpre | auto].
Qed.

(** The code units of a piece are code units of the string. *)
Lemma split_units (sep : codeUnit) (s w : jsstring) (c : codeUnit) :
  In w (split sep s) -> In c w -> In c s.
Proof.
  intros Hw Hc. destruct (split_factor _ _ _ Hw) as [a [b ->]].
  apply in_or_app; right; apply in_or_app; left; exact Hc.
Qed.

Lemma firstn_NoDup {A} (n : nat) (l : list A) : NoDup l -> NoDup (firstn n l).
Proof.
  revert n; induction l as [|x l IH]; intros [|n] H; simpl; try constructor.
  - inversion_clear H as [|? ? Hx Hl]. intros Hin. apply Hx.
    revert Hin. clear. revert n. induction l as [|y l IHl]; intros [|n]; simpl; try tauto.
    intros [->|H]; eauto.
  - inversion_clear H; auto.
Qed.

(** Filtering a list keeps its keys distinct. *)
Lemma filter_keys_distinct (T K : Type) (key : T -> K) (keep : T -> bool) :
  forall items : list T,
    NoDup (map key items) -> NoDup (map key (filter keep items)).
Proof.
  intros items; induction items as [|x items IH]; simpl; intros H; [constructor|].
  inversion_clear H as [|? ? Hx Hl]. destruct (keep x); simpl; auto.
  constructor; auto. intros Hin. apply Hx.
  apply in_map_iff in Hin as (y & Hy & Hin). apply filter_In in Hin as [Hin _].
  apply in_map_iff. eauto.
Qed.

Lemma findIndex_range {A} (p : A -> bool) (l : list A) :
  (-1 <= findIndex p l < Z.of_nat (length l))%Z.
Proof.
  induction l as [|x l IH]; simpl length; simpl findIndex; [lia|].
  destruct (p x); [lia|]. destruct (Z.ltb_spec (findIndex p l) 0); lia.
Qed.

(** When an element of the front part satisfies [p], [findIndex] stops
    inside the front part. *)
Lemma findIndex_front {A} (p : A -> bool) (pre l : list A) (y : A) :
  In y pre -> p y = true -> (0 <= findIndex p (pre ++ l) < Z.of_nat (length pre))%Z.
Proof.
  induction pre as [|x pre IH]; intros Hin Hy; [destruct Hin|].
  simpl length; simpl app; simpl findIndex.
  destruct (p x) eqn:Hx; [lia|].
  destruct Hin as [-> | Hin]; [congruence|].
  specialize (IH Hin Hy). destruct (Z.ltb_spec (findIndex p (pre ++ l)) 0); lia.
Qed.

End JSFacts.

(** ** The matcher *)

Module MatcherFacts.
Import JSFacts.

Lemma mockData_ids_NoDup : NoDup (map subject_id mockData).
Proof.
  vm_compute. repeat constructor; simpl; intuition discriminate.
Qed.

(** An item kept by the duplicate filter has a [subject_id] that no
    earlier item of the array has. *)
Lemma firstOfItsId_kept (self rest pre : list BPSDataItem) (y : BPSDataItem) :
  self = pre ++ rest ->
  In y (filter_from firstOfItsId self (length pre) rest) ->
  In y rest /\
  forall z, In z pre -> streq (subject_id z) (subject_id y) = false.
Proof.
  revert pre; induction rest as [|item rest IH]; intros pre Hself Hin; [destruct Hin|].
  assert (Hrec : In y (filter_from firstOfItsId self (S (length pre)) rest) ->
                 In y (item :: rest) /\
                 forall z, In z pre -> streq (subject_id z) (subject_id y) = false).
  { intros Hy. destruct (IH (pre ++ [item])) as [Hr Hz].
    - rewrite <- app_assoc. exact Hself.
    - rewrite length_app, Nat.add_1_r. exact Hy.
    - split; [right; exact Hr|]. intros z Hzin. apply Hz, in_or_app. auto. }
  simpl in Hin. destruct (firstOfItsId item (length pre) self) eqn:Hkeep; [|auto].
  destruct Hin as [<- | Hin]; [|auto].
  split; [left; reflexivity|]. intros z Hz.
  destruct (streq (subject_id z) (subject_id item)) eqn:Hzid; [|reflexivity].
  unfold firstOfItsId in Hkeep. apply Z.eqb_eq in Hkeep. subst self.
  pose proof (findIndex_front (fun t => streq (subject_id t) (subject_id item))
                pre (item :: rest) z Hz Hzid). lia.
Qed.

Lemma filter_from_ids_NoDup (self rest pre : list BPSDataItem) :
  self = pre ++ rest ->
  NoDup (map subject_id (filter_from firstOfItsId self (length pre) rest)).
Proof.
  revert pre; induction rest as [|item rest IH]; intros pre Hself; [constructor|].
  assert (Hrec : NoDup (map subject_id
                    (filter_from firstOfItsId self (length (pre ++ [item])) rest))).
  { apply IH. rewrite <- app_assoc. exact Hself. }
  assert (Hlater : forall y,
             In y (filter_from firstOfItsId self (length (pre ++ [item])) rest) ->
             subject_id y <> subject_id item).
  { intros y Hy Heq.
    destruct (firstOfItsId_kept self rest (pre ++ [item]) y) as [_ Hz];
      [rewrite <- app_assoc; exact Hself | exact Hy |].
    assert (Hitem : In item (pre ++ [item])) by (apply in_or_app; right; left; reflexivity).
    specialize (Hz item Hitem).
    rewrite Heq, streq_refl in Hz. discriminate. }
  rewrite length_app, Nat.add_1_r in Hrec, Hlater.
  simpl. destruct (firstOfItsId item (length pre) self); [|exact Hrec].
  simpl. constructor; [|exact Hrec].
  intros Hin. apply in_map_iff in Hin as (y & Hy & Hin). exact (Hlater y Hin Hy).
Qed.

(** The duplicate filter of [findRelevantData] leaves no two items with
    the same [subject_id]. *)
Lemma uniqueResults_NoDup (partialResults : list BPSDataItem) :
  NoDup (map subject_id (filteri firstOfItsId partialResults)).
Proof. exact (filter_from_ids_NoDup partialResults partialResults [] eq_refl). Qed.

Section Generic.
Context {L : Lowering}.

Lemma detectSpecificKeywords_NoDup (q : jsstring) :
  NoDup (map subject_id (detectSpecificKeywords q)).
Proof. apply filter_keys_distinct, mockData_ids_NoDup. Qed.

Lemma detectSpecificKeywords_length (q : jsstring) :
  length (detectSpecificKeywords q) <= 3.
Proof.
  unfold detectSpecificKeywords.
  etransitivity; [apply filter_length_le | apply Nat.le_refl].
Qed.

(** A record found through a factor of a string is found through the
    string. *)
Lemma keywordHit_factor (s w : jsstring) (item : BPSDataItem) :
  (exists a b, s = a ++ w ++ b) ->
  keywordHit w item = true -> keywordHit s item = true.
Proof.
  intros Hfac. unfold keywordHit.
  repeat rewrite orb_true_iff. repeat rewrite andb_true_iff.
  pose proof (includes_factor s w (toLowerCase (category item)) Hfac).
  pose proof (includes_factor s w (str "populasi") Hfac).
  pose proof (includes_factor s w (str "ekonomi") Hfac).
  pose proof (includes_factor s w (str "pendidikan") Hfac).
  tauto.
Qed.

Lemma filter_nil_iff {A} (p : A -> bool) (l : list A) :
  filter p l = [] <-> forall x, In x l -> p x = false.
Proof.
  induction l as [|x l IH]; simpl; [tauto|].
  destruct (p x) eqn:Hx.
  - split; [discriminate|]. intros H. specialize (H x (or_introl eq_refl)). congruence.
  - rewrite IH. split; [intros H y [<-|Hy]; auto | auto].
Qed.

(** The keyword phase is monotone: when the whole input finds nothing, a
    word of the lowered input finds nothing either. *)
Lemma detectSpecificKeywords_word `{!LoweringStable L} (q w : jsstring) :
  detectSpecificKeywords q = [] ->
  In w (split space (toLowerCase q)) ->
  detectSpecificKeywords w = [].
Proof.
  unfold detectSpecificKeywords. rewrite !filter_nil_iff.
  intros Hq Hw item Hitem. rewrite (lowered_word _ _ Hw).
  destruct (keywordHit w item) eqn:Hhit; [|reflexivity].
  rewrite <- (Hq item Hitem). symmetry.
  exact (keywordHit_factor _ _ item (split_factor _ _ _ Hw) Hhit).
Qed.

Lemma pushWord_nothing (words : list jsstring) (acc : list BPSDataItem) :
  (forall w, In w words -> detectSpecificKeywords w = []) ->
  fold_left pushWord words acc = acc.
Proof.
  revert acc; induction words as [|w words IH]; intros acc Hall; [reflexivity|].
  simpl. rewrite IH by (intros; apply Hall; right; assumption).
  unfold pushWord, searchBPSData. rewrite (Hall w (or_introl eq_refl)).
  simpl. apply app_nil_r.
Qed.

(** With a stable lowering only the keyword phase of [findRelevantData]
    ever contributes. *)
Lemma findRelevantData_keyword_phase `{!LoweringStable L} (q : jsstring) :
  findRelevantData q = slice0 5 (detectSpecificKeywords q).
Proof.
  unfold findRelevantData, searchBPSData.
  destruct (detectSpecificKeywords q) as [|r rs] eqn:E; [|reflexivity].
  simpl. rewrite pushWord_nothing; [reflexivity|].
  intros w Hw. apply filter_In in Hw as [Hw _].
  exact (detectSpecificKeywords_word q w E Hw).
Qed.

End Generic.

(** The lowering of ASCII letters is stable. *)
Lemma lowerUnit_idem (c : codeUnit) : lowerUnit (lowerUnit c) = lowerUnit c.
Proof.
  unfold lowerUnit.
  destruct ((65 <=? c) && (c <=? 90))%N eqn:E; [|rewrite E; reflexivity].
  apply andb_true_iff in E as [Hc _]. apply N.leb_le in Hc.
  destruct ((65 <=? c + 32) && (c + 32 <=? 90))%N eqn:E'; [|reflexivity].
  apply andb_true_iff in E' as [_ Hc']. apply N.leb_le in Hc'. lia.
Qed.

#[global] Instance ascii_lowering_stable : LoweringStable ascii_lowering.
Proof.
  intros q w Hw. simpl in *.
  assert (Hfix : forall c, In c w -> lowerUnit c = c).
  { intros c Hc. pose proof (split_units _ _ _ c Hw Hc) as Hin.
    apply in_map_iff in Hin as (c0 & <- & _). apply lowerUnit_idem. }
  clear Hw. induction w as [|c w IH]; simpl; [reflexivity|].
  rewrite Hfix by (left; reflexivity). f_equal. apply IH.
  intros; apply Hfix; right; assumption.
Qed.

(** So is every lowering that works unit by unit and lowers a lowered
    unit to itself. *)
Lemma unitwise_lowering_stable (f : codeUnit -> codeUnit) :
  (forall c, f (f c) = f c) -> LoweringStable {| toLowerCase := map f |}.
Proof.
  intros Hf q w Hw. simpl in *.
  assert (Hfix : forall c, In c w -> f c = c).
  { intros c Hc. pose proof (split_units _ _ _ c Hw Hc) as Hin.
    apply in_map_iff in Hin as (c0 & <- & _). apply Hf. }
  clear Hw. induction w as [|c w IH]; simpl; [reflexivity|].
  rewrite Hfix by (left; reflexivity). f_equal. apply IH.
  intros; apply Hfix; right; assumption.
Qed.

Lemma lowerUnitKelvin_idem (c : codeUnit) :
  lowerUnitKelvin (lowerUnitKelvin c) = lowerUnitKelvin c.
Proof.
  unfold lowerUnitKelvin.
  destruct (c =? 0x212A)%N eqn:Ec; [reflexivity|].
  apply N.eqb_neq in Ec.
  assert (Hne : (lowerUnit c =? 0x212A)%N = false).
  { apply N.eqb_neq. unfold lowerUnit.
    destruct ((65 <=? c) && (c <=? 90))%N eqn:E; [|exact Ec].
    apply andb_true_iff in E as [_ Hc]. apply N.leb_le in Hc. lia. }
  rewrite Hne. apply lowerUnit_idem.
Qed.

Lemma kelvin_lowering_stable : LoweringStable kelvin_lowering.
Proof. exact (unitwise_lowering_stable lowerUnitKelvin lowerUnitKelvin_idem). Qed.

(** Stability is what the per-word phase rests on.  A function that is
    not stable, here one that turns the word [abc] into [ekonomi] and
    so changes its own result when applied again, lets a word find a
    record that the whole input does not find. *)
Example unstable_function_word_match :
  let L := {| toLowerCase := fun s => if streq s (str "abc") then str "ekonomi" else s |} in
  @detectSpecificKeywords L (str "abc def") = []
  /\ @findRelevantData L (str "abc def") = [econ_001].
Proof. split; vm_compute; reflexivity. Qed.

End MatcherFacts.

(** ** The claims

    A statement with a binder [L : Lowering] holds for every lowering
    function.  A statement without one is about [ascii_lowering], the
    builtin on the ASCII letters, which is what [toLowerCase] does on
    the inputs the scenarios name; no statement about every input is
    made that way. *)

Import JSFacts MatcherFacts.

(** C2: for every input string (and whatever the lowering), the list
    returned by [findRelevantData] has at most 5 records and no two of
    them have the same [subject_id]. *)
Theorem findRelevantData_capped_unique (L : Lowering) (q : jsstring) :
  length (findRelevantData q) <= 5
  /\ NoDup (map subject_id (findRelevantData q)).
Proof.
  unfold findRelevantData, searchBPSData, slice0.
  destruct (0 <? length (detectSpecificKeywords q)).
  - split; [apply firstn_le_length|].
    rewrite <- firstn_map. apply firstn_NoDup, detectSpecificKeywords_NoDup.
  - split.
    + etransitivity; [apply firstn_le_length | repeat constructor].
    + rewrite <- firstn_map. apply firstn_NoDup, uniqueResults_NoDup.
Qed.

(** C3: for every input string, the full-text phase [searchBPSData]
    returns the very list the keyword phase [detectSpecificKeywords]
    returns. *)
Theorem searchBPSData_is_keyword_phase (L : Lowering) (q : jsstring) :
  searchBPSData q = detectSpecificKeywords q.
Proof. reflexivity. Qed.

(** C10: for every input string, [findRelevantData] is the keyword
    phase cut to 5 records: the full-text phase and the per-word phase
    add nothing, no word of an input that finds nothing finds a record,
    and the result is empty exactly when the keyword phase is.  This
    holds whatever the lowering function, provided it leaves the words
    of a lowered string as they are when it is applied to them again,
    as [String.prototype.toLowerCase] does: the code lowers the input,
    cuts it at spaces, and [detectSpecificKeywords] lowers each word
    once more. *)
Theorem findRelevantData_keyword_phase_only (L : Lowering)
    (Hstable : LoweringStable L) (q : jsstring) :
  findRelevantData q = slice0 5 (detectSpecificKeywords q)
  /\ (detectSpecificKeywords q = [] ->
      forall word, In word (split space (toLowerCase q)) ->
                   detectSpecificKeywords word = [] /\ searchBPSData word = [])
  /\ (findRelevantData q = [] <-> detectSpecificKeywords q = []).
Proof.
  pose proof (findRelevantData_keyword_phase q) as Hq.
  split; [exact Hq|]. split.
  - intros Hnone word Hword.
    pose proof (detectSpecificKeywords_word q word Hnone Hword). auto.
  - rewrite Hq. unfold slice0.
    pose proof (detectSpecificKeywords_length q) as Hlen.
    rewrite firstn_all2 by lia. tauto.
Qed.

(** The lowering that knows the Kelvin sign is stable, and with it
    [eKonomi] finds the economy record in the keyword phase. *)
Lemma findRelevantData_keyword_phase_only_witness :
  LoweringStable kelvin_lowering
  /\ @detectSpecificKeywords kelvin_lowering kelvin_question = [econ_001]
  /\ @findRelevantData kelvin_lowering kelvin_question
     = slice0 5 (@detectSpecificKeywords kelvin_lowering kelvin_question).
Proof.
  split; [exact kelvin_lowering_stable|].
  split; [vm_compute; reflexivity|].
  exact (proj1 (findRelevantData_keyword_phase_only
                  kelvin_lowering kelvin_lowering_stable kelvin_question)).
Defined.

(** C4: [detectQuestionType] tries the keyword sets in the order
    greeting, thanks, identity, list, and the first set mentioned in the
    lowered text decides; it answers [information] when none is
    mentioned, as for the empty string.  In particular a text whose
    lowered form contains a greeting keyword, such as "halo", is a
    greeting, whatever thanks keyword it also contains. *)
Theorem detectQuestionType_priority (L : Lowering) (q : jsstring) :
  detectQuestionType q = classify (toLowerCase q) rules
  /\ (mentions (toLowerCase q) greetingKeywords = true ->
      detectQuestionType q = greeting)
  /\ (includes (toLowerCase q) (str "halo") = true ->
      mentions (toLowerCase q) thanksKeywords = true ->
      detectQuestionType q = greeting)
  /\ (mentions (toLowerCase q) greetingKeywords = false ->
      mentions (toLowerCase q) thanksKeywords = false ->
      mentions (toLowerCase q) identityKeywords = false ->
      mentions (toLowerCase q) listKeywords = false ->
      detectQuestionType q = information)
  /\ @detectQuestionType ascii_lowering [] = information.
Proof.
  assert (Hrefines : detectQuestionType q = classify (toLowerCase q) rules).
  { unfold detectQuestionType, classify, rules, mentions, greetingKeywords,
      thanksKeywords, identityKeywords, listKeywords, existsb.
    repeat rewrite orb_false_r. repeat rewrite orb_assoc. reflexivity. }
  split; [exact Hrefines|]. rewrite Hrefines. unfold rules, classify.
  split; [intros ->; reflexivity|].
  split.
  - intros Hhalo _. unfold mentions at 1, greetingKeywords, existsb.
    rewrite Hhalo. reflexivity.
  - split; [intros -> -> -> ->; reflexivity | reflexivity].
Qed.

(** The witness of C4: "Halo, terima kasih" mentions a greeting keyword
    and a thanks keyword, and is a greeting. *)
Lemma detectQuestionType_priority_witness :
  mentions (toLowerCase (str "Halo, terima kasih")) thanksKeywords = true
  /\ detectQuestionType (str "Halo, terima kasih") = greeting.
Proof.
  split; [reflexivity|].
  apply (detectQuestionType_priority ascii_lowering (str "Halo, terima kasih"));
    reflexivity.
Defined.

(** C1, as claimed, fails: "halo pendidikan" is a greeting, the matcher
    finds the education record, and [handleSubmit] attaches that record
    as a source; so it is false that the canned intents never carry a
    source. *)
Lemma sources_canned_counterexample :
  detectQuestionType (str "halo pendidikan") = greeting
  /\ findRelevantData (str "halo pendidikan") = [edu_001]
  /\ snd (Rev1.handleSubmit (str "halo pendidikan")) = Some [toSource edu_001]
  /\ snd (Rev2.handleSubmit (str "halo pendidikan")) = Some [toSource edu_001]
  /\ ~ (forall questionType relevantData,
          In questionType cannedIntents ->
          noSources (sources questionType relevantData)).
Proof.
  repeat split; try reflexivity.
  intros Hclaim.
  destruct (Hclaim greeting [edu_001] (or_introl eq_refl)) as [H | H];
    discriminate H.
Qed.

(** C1, amended: for a canned intent (greeting, thanks, identity, list)
    the reply text is the same for every match list; [sources] is
    [undefined] when the match list is empty (the portal fallback is
    left out), and is one [{title, url}] entry per match, in order, when
    it is not. *)
Theorem sources_canned (question questionType : jsstring)
    (relevantData : list BPSDataItem) :
  In questionType cannedIntents ->
  (forall relevantData',
      Rev1.generatePersonalizedResponse question questionType relevantData
      = Rev1.generatePersonalizedResponse question questionType relevantData'
      /\ Rev2.generatePersonalizedResponse question questionType relevantData
         = Rev2.generatePersonalizedResponse question questionType relevantData')
  /\ (relevantData = [] -> sources questionType relevantData = None)
  /\ (relevantData <> [] ->
      sources questionType relevantData = Some (map toSource relevantData)).
Proof.
  intros Hcanned. split; [|split].
  - intros relevantData'.
    unfold Rev1.generatePersonalizedResponse, Rev2.generatePersonalizedResponse.
    destruct Hcanned as [<- | [<- | [<- | [<- | []]]]]; split; reflexivity.
  - intros ->. destruct Hcanned as [<- | [<- | [<- | [<- | []]]]]; reflexivity.
  - intros Hne. destruct relevantData as [|item rest]; [congruence | reflexivity].
Qed.

(** The witness of C1 amended, at the thanks intent with two matches. *)
Lemma sources_canned_witness :
  In thanks cannedIntents
  /\ sources thanks [] = None
  /\ sources thanks [pop_001; edu_001] = Some [toSource pop_001; toSource edu_001].
Proof.
  assert (Hcanned : In thanks cannedIntents) by (right; left; reflexivity).
  split; [exact Hcanned|]. split.
  - apply (sources_canned [] thanks [] Hcanned). reflexivity.
  - apply (sources_canned [] thanks [pop_001; edu_001] Hcanned). discriminate.
Defined.

(** C5: with the intent [information] and no match, the reply is the
    fixed "nothing relevant found, try a more specific keyword" text of
    the revision, no [TypeError] is thrown, and [sources] is exactly one
    entry, whose [url] is the portal's, "https://medankota.bps.go.id/id";
    "xyzxyz not a real keyword" is such an input. *)
Theorem no_match_reply (question : jsstring) :
  Rev1.generatePersonalizedResponse question information []
  = Return (str "Maaf, saya tidak menemukan data yang relevan dengan pertanyaan Anda. 🤔 Coba gunakan kata kunci yang lebih spesifik.")
  /\ Rev2.generatePersonalizedResponse question information []
     = Return (str "Maaf, saya tidak menemukan data yang relevan dengan pertanyaan Anda. ðŸ™ Coba gunakan kata kunci yang lebih spesifik seperti " ++ dquote ++ str "populasi" ++ dquote ++ str ", " ++ dquote ++ str "ekonomi" ++ dquote ++ str ", " ++ dquote ++ str "pendidikan" ++ dquote ++ str ", atau " ++ dquote ++ str "infrastruktur" ++ dquote ++ str ".")
  /\ (exists entry, sources information [] = Some [entry]
        /\ Source.url entry = str "https://medankota.bps.go.id/id")
  /\ Rev1.handleSubmit (str "xyzxyz not a real keyword")
     = (Rev1.generatePersonalizedResponse question information [], Some [portalSource])
  /\ Rev2.handleSubmit (str "xyzxyz not a real keyword")
     = (Rev2.generatePersonalizedResponse question information [], Some [portalSource]).
Proof.
  split; [vm_compute; reflexivity|].
  split; [vm_compute; reflexivity|].
  split; [exists portalSource; split; vm_compute; reflexivity|].
  split; vm_compute; reflexivity.
Qed.

(** C6: for the intent [list] the reply is one text, the same for every
    question and every match list.  Its first line is the count
    statement, an empty line follows, and then come the numbered lines,
    one per category of [getCategories], numbered from 1, each ended by
    a newline: 8 lines for the 8 categories. *)
Theorem list_reply :
  (exists text, forall question relevantData,
      Rev1.generatePersonalizedResponse question list_ relevantData = Return text
      /\ lines text
         = str "Tentu! 📋 BPS Kota Medan memiliki 8 kategori utama statistik:"
             :: [] :: numberedCategories ++ [[]])
  /\ (exists text, forall question relevantData,
      Rev2.generatePersonalizedResponse question list_ relevantData = Return text
      /\ lines text
         = str "Tentu! ðŸ“Š BPS Kota Medan memiliki 8 kategori utama statistik:"
             :: [] :: numberedCategories ++ [[]])
  /\ length numberedCategories = length getCategories
  /\ length getCategories = 8
  /\ numberedCategories
     = [str "1. Kependudukan dan Demografi";
     str "2. Ekonomi dan Perdagangan";
     str "3. Pendidikan dan Kesehatan";
     str "4. Infrastruktur dan Pembangunan";
     str "5. Sosial dan Budaya";
     str "6. Pertanian dan Perikanan";
     str "7. Industri dan Energi";
     str "8. Transportasi dan Komunikasi"].
Proof.
  split; [|split].
  - eexists. intros question relevantData. split; [reflexivity|].
    vm_compute. reflexivity.
  - eexists. intros question relevantData. split; [reflexivity|].
    vm_compute. reflexivity.
  - split; [vm_compute; reflexivity|].
    split; vm_compute; reflexivity.
Qed.

(** C7: the composer is a total function of the intent and the matches:
    for every intent string and every match list there is exactly one
    text that every call returns, whatever the question, and no call
    throws. *)
Theorem generatePersonalizedResponse_total (questionType : jsstring)
    (relevantData : list BPSDataItem) :
  (exists! text, forall question,
      Rev1.generatePersonalizedResponse question questionType relevantData
      = Return text)
  /\ (exists! text, forall question,
      Rev2.generatePersonalizedResponse question questionType relevantData
      = Return text).
Proof.
  assert (Hone : forall (c : completion jsstring) (text : jsstring),
             c = Return text ->
             exists! text', forall question : jsstring, c = Return text').
  { intros c text ->. exists text. split; [reflexivity|].
    intros text' H. specialize (H []). congruence. }
  split.
  - unfold Rev1.generatePersonalizedResponse.
    repeat match goal with
           | |- context [if streq ?a ?b then _ else _] =>
             destruct (streq a b); [eapply Hone; reflexivity|]
           end.
    destruct relevantData as [|primaryResult rest]; eapply Hone; reflexivity.
  - unfold Rev2.generatePersonalizedResponse.
    repeat match goal with
           | |- context [if streq ?a ?b then _ else _] =>
             destruct (streq a b); [eapply Hone; reflexivity|]
           end.
    destruct relevantData as [|primaryResult rest]; eapply Hone; reflexivity.
Qed.

(** C8: for the input "data pendidikan" the classifier answers
    [information], the matcher returns the education record [edu_001]
    alone, the reply contains that record's title and description, and
    the sources are the single entry with the title "Statistik
    Pendidikan Kota Medan" and the record's url. *)
Theorem data_pendidikan_scenario :
  detectQuestionType (str "data pendidikan") = information
  /\ findRelevantData (str "data pendidikan") = [edu_001]
  /\ subject_id edu_001 = str "edu_001"
  /\ (exists text,
        Rev1.handleSubmit (str "data pendidikan")
        = (Return text,
           Some [ {| Source.title := str "Statistik Pendidikan Kota Medan";
                      Source.url := url edu_001 |} ])
        /\ includes text (title edu_001) = true
        /\ includes text (description edu_001) = true)
  /\ (exists text,
        Rev2.handleSubmit (str "data pendidikan")
        = (Return text,
           Some [ {| Source.title := str "Statistik Pendidikan Kota Medan";
                      Source.url := url edu_001 |} ])
        /\ includes text (title edu_001) = true
        /\ includes text (description edu_001) = true).
Proof.
  split; [reflexivity|]. split; [reflexivity|]. split; [reflexivity|].
  split; eexists; (split; [reflexivity|]); split; vm_compute; reflexivity.
Qed.

(** C9: the catalog contains the population record [pop_001], and for
    the input "populasi kota medan" the matcher returns a non-empty list
    whose first element is that record. *)
Theorem populasi_kota_medan_first :
  In pop_001 mockData
  /\ subject_id pop_001 = str "pop_001"
  /\ findRelevantData (str "populasi kota medan") <> []
  /\ hd_error (findRelevantData (str "populasi kota medan")) = Some pop_001.
Proof.
  split; [left; reflexivity|]. split; [reflexivity|].
  split; [vm_compute; discriminate | reflexivity].
Qed.

(** ** Further properties of the engine

    The matcher, the replies and the suggestions.  First the facts the
    statements share. *)

Module EngineFacts.

Lemma streq_false (a b : jsstring) : a <> b -> streq a b = false.
Proof.
  intros Hne. destruct (streq a b) eqn:E; [|reflexivity].
  apply streq_spec in E. contradiction.
Qed.

(** An intent string outside the canned ones fails the four tests of
    the composer's [switch] and of the [sources] expression. *)
Lemma not_canned_tests (questionType : jsstring) :
  ~ In questionType cannedIntents ->
  streq questionType greeting = false /\ streq questionType thanks = false
  /\ streq questionType identity = false /\ streq questionType list_ = false.
Proof.
  intros Hout. unfold cannedIntents in Hout. simpl in Hout.
  repeat split; apply streq_false; intros ->; tauto.
Qed.


(** The composer returns a text, whatever it is given. *)
Lemma Rev1_composer_returns (questionType : jsstring) (relevantData : list BPSDataItem) :
  exists text, forall question,
      Rev1.generatePersonalizedResponse question questionType relevantData = Return text.
Proof.
  unfold Rev1.generatePersonalizedResponse.
  repeat match goal with
         | |- context [if streq ?a ?b then _ else _] =>
           destruct (streq a b); [eexists; intros; reflexivity|]
         end.
  destruct relevantData as [|primaryResult rest]; eexists; intros; reflexivity.
Qed.

Lemma Rev2_composer_returns (questionType : jsstring) (relevantData : list BPSDataItem) :
  exists text, forall question,
      Rev2.generatePersonalizedResponse question questionType relevantData = Return text.
Proof.
  unfold Rev2.generatePersonalizedResponse.
  repeat match goal with
         | |- context [if streq ?a ?b then _ else _] =>
           destruct (streq a b); [eexists; intros; reflexivity|]
         end.
  destruct relevantData as [|primaryResult rest]; eexists; intros; reflexivity.
Qed.


Lemma firstn_subset {A} (n : nat) (l : list A) (x : A) : In x (firstn n l) -> In x l.
Proof.
  revert n; induction l as [|y l IH]; intros [|n]; simpl; try tauto.
  intros [H|H]; eauto.
Qed.

Section Generic.
Context {L : Lowering}.





(** What a text finds depends on its lowered form only. *)
Lemma findRelevantData_lowered (q q' : jsstring) :
  toLowerCase q = toLowerCase q' -> findRelevantData q = findRelevantData q'.
Proof.
  intros E. unfold findRelevantData, searchBPSData, detectSpecificKeywords.
  rewrite E. reflexivity.
Qed.

Lemma detectQuestionType_lowered (q q' : jsstring) :
  toLowerCase q = toLowerCase q' -> detectQuestionType q = detectQuestionType q'.
Proof. intros E. unfold detectQuestionType. rewrite E. reflexivity. Qed.

(** With a stable lowering the matcher is the filter of the keyword
    phase, uncut. *)
Lemma findRelevantData_filter `{!LoweringStable L} (q : jsstring) :
  findRelevantData q = filter (keywordHit (toLowerCase q)) mockData.
Proof.
  rewrite findRelevantData_keyword_phase. unfold slice0.
  change (filter (keywordHit (toLowerCase q)) mockData) with (detectSpecificKeywords q).
  apply firstn_all2. pose proof (detectSpecificKeywords_length q). lia.
Qed.

(** What finds each record of the catalog: its lowered category, or the
    keyword that goes with its [subject_id]. *)
Lemma keywordHit_pop_001 (keywords : jsstring) :
  keywordHit keywords pop_001
  = includes keywords (toLowerCase (category pop_001))
    || includes keywords (str "populasi").
Proof.
  unfold keywordHit.
  replace (includes (subject_id pop_001) (str "pop")) with true by (vm_compute; reflexivity).
  replace (includes (subject_id pop_001) (str "econ")) with false by (vm_compute; reflexivity).
  replace (includes (subject_id pop_001) (str "edu")) with false by (vm_compute; reflexivity).
  repeat rewrite andb_false_r. repeat rewrite orb_false_r. rewrite andb_true_r.
  reflexivity.
Qed.

Lemma keywordHit_econ_001 (keywords : jsstring) :
  keywordHit keywords econ_001
  = includes keywords (toLowerCase (category econ_001))
    || includes keywords (str "ekonomi").
Proof.
  unfold keywordHit.
  replace (includes (subject_id econ_001) (str "pop")) with false by (vm_compute; reflexivity).
  replace (includes (subject_id econ_001) (str "econ")) with true by (vm_compute; reflexivity).
  replace (includes (subject_id econ_001) (str "edu")) with false by (vm_compute; reflexivity).
  repeat rewrite andb_false_r. repeat rewrite orb_false_r. rewrite andb_true_r.
  reflexivity.
Qed.

Lemma keywordHit_edu_001 (keywords : jsstring) :
  keywordHit keywords edu_001
  = includes keywords (toLowerCase (category edu_001))
    || includes keywords (str "pendidikan").
Proof.
  unfold keywordHit.
  replace (includes (subject_id edu_001) (str "pop")) with false by (vm_compute; reflexivity).
  replace (includes (subject_id edu_001) (str "econ")) with false by (vm_compute; reflexivity).
  replace (includes (subject_id edu_001) (str "edu")) with true by (vm_compute; reflexivity).
  repeat rewrite andb_false_r. repeat rewrite orb_false_r. rewrite andb_true_r.
  reflexivity.
Qed.

(** A greeting is a text whose lowered form holds a greeting keyword. *)
Lemma detectQuestionType_greeting (q : jsstring) :
  detectQuestionType q = greeting <->
  includes (toLowerCase q) (str "halo") || includes (toLowerCase q) (str "hai")
  || includes (toLowerCase q) (str "hello") = true.
Proof.
  unfold detectQuestionType.
  destruct (includes (toLowerCase q) (str "halo") || includes (toLowerCase q) (str "hai")
            || includes (toLowerCase q) (str "hello")); [tauto|].
  split; [|discriminate]. intros H.
  repeat match type of H with
         | context [if ?c then _ else _] => destruct c
         end; vm_compute in H; discriminate H.
Qed.

End Generic.

Lemma includes_prefix (k b : jsstring) : includes (k ++ b) k = true.
Proof. apply includes_spec. exists [], b. reflexivity. Qed.

Lemma includes_app_l (s b k : jsstring) :
  includes s k = true -> includes (s ++ b) k = true.
Proof.
  intros H. apply (includes_factor _ s); [|exact H].
  exists [], b. reflexivity.
Qed.

Lemma includes_app_r (a s k : jsstring) :
  includes s k = true -> includes (a ++ s) k = true.
Proof.
  intros H. apply (includes_factor _ s); [|exact H].
  exists a, []. rewrite app_nil_r. reflexivity.
Qed.

(** Finds a factor among the operands of a concatenation. *)
Ltac find_factor :=
  match goal with
  | |- includes (?k ++ _) ?k' = true => constr_eq k k'; apply includes_prefix
  | |- includes (_ ++ _) _ = true => apply includes_app_r; find_factor
  | |- includes (_ ++ _) _ = true => apply includes_app_l; find_factor
  end.

Lemma baseGeneralSuggestions_NoDup : NoDup baseGeneralSuggestions.
Proof. vm_compute. repeat constructor; simpl; intuition discriminate. Qed.

End EngineFacts.

Import EngineFacts.


(** X2: which question finds which record.  For a lowering that is
    stable and lowers the three categories of the catalog as the builtin
    does, the matcher is decided by four keywords of the lowered input:
    "kependudukan" or "populasi" finds [pop_001], "ekonomi" finds
    [econ_001], "pendidikan" finds [edu_001]; the records found come in
    catalog order and nothing else is ever found. *)
Theorem findRelevantData_by_keyword (L : Lowering) (Hstable : LoweringStable L)
    (Hcategories : map toLowerCase (map category mockData)
                   = [str "kependudukan"; str "ekonomi"; str "pendidikan"])
    (q : jsstring) :
  findRelevantData q
  = (if includes (toLowerCase q) (str "kependudukan")
        || includes (toLowerCase q) (str "populasi") then [pop_001] else [])
    ++ (if includes (toLowerCase q) (str "ekonomi") then [econ_001] else [])
    ++ (if includes (toLowerCase q) (str "pendidikan") then [edu_001] else []).
Proof.
  unfold mockData in Hcategories. cbn [map] in Hcategories.
  injection Hcategories as Hpop Hecon Hedu.
  rewrite findRelevantData_filter. unfold mockData. cbn [filter].
  rewrite keywordHit_pop_001, keywordHit_econ_001, keywordHit_edu_001.
  change (category pop_001) with (str "Kependudukan").
  change (category econ_001) with (str "Ekonomi").
  change (category edu_001) with (str "Pendidikan").
  rewrite Hpop, Hecon, Hedu, orb_diag, orb_diag.
  destruct (includes (toLowerCase q) (str "kependudukan")
            || includes (toLowerCase q) (str "populasi")),
    (includes (toLowerCase q) (str "ekonomi")),
    (includes (toLowerCase q) (str "pendidikan")); reflexivity.
Qed.

(** With the lowering that knows the Kelvin sign, [eKonomi] finds the
    economy record and nothing else. *)
Lemma findRelevantData_by_keyword_witness :
  LoweringStable kelvin_lowering
  /\ map (@toLowerCase kelvin_lowering) (map category mockData)
     = [str "kependudukan"; str "ekonomi"; str "pendidikan"]
  /\ @findRelevantData kelvin_lowering kelvin_question = [econ_001].
Proof.
  split; [exact kelvin_lowering_stable|].
  split; [vm_compute; reflexivity|].
  rewrite (findRelevantData_by_keyword kelvin_lowering kelvin_lowering_stable
             ltac:(vm_compute; reflexivity) kelvin_question).
  vm_compute. reflexivity.
Defined.

(** X3: two inputs with the same lowered form get the same intent, the
    same matches and the same reply, text and sources, in both
    revisions: the engine does not see the case of the letters. *)
Theorem reply_ignores_case (L : Lowering) (q q' : jsstring) :
  toLowerCase q = toLowerCase q' ->
  detectQuestionType q = detectQuestionType q'
  /\ findRelevantData q = findRelevantData q'
  /\ Rev1.handleSubmit q = Rev1.handleSubmit q'
  /\ Rev2.handleSubmit q = Rev2.handleSubmit q'.
Proof.
  intros E.
  pose proof (detectQuestionType_lowered q q' E) as Ht.
  pose proof (findRelevantData_lowered q q' E) as Hd.
  split; [exact Ht|]. split; [exact Hd|].
  unfold Rev1.handleSubmit, Rev2.handleSubmit. rewrite Ht, Hd.
  destruct (Rev1_composer_returns (detectQuestionType q') (findRelevantData q'))
    as [text1 H1].
  destruct (Rev2_composer_returns (detectQuestionType q') (findRelevantData q'))
    as [text2 H2].
  rewrite (H1 q), (H1 q'), (H2 q), (H2 q'). split; reflexivity.
Qed.

Lemma reply_ignores_case_witness :
  Rev2.handleSubmit (str "DATA Pendidikan") = Rev2.handleSubmit (str "data pendidikan").
Proof.
  apply (reply_ignores_case ascii_lowering (str "DATA Pendidikan") (str "data pendidikan")).
  vm_compute. reflexivity.
Defined.

(** X4: a question that contains another one loses none of its matches.
    For a stable lowering, when the lowered form of [q] occurs in the
    lowered form of [q'], every record found for [q] is found for [q'],
    and if [q] is a greeting so is [q']. *)
Theorem longer_question_keeps_matches (L : Lowering) (Hstable : LoweringStable L)
    (q q' : jsstring) :
  (exists a b, toLowerCase q' = a ++ toLowerCase q ++ b) ->
  (forall item, In item (findRelevantData q) -> In item (findRelevantData q'))
  /\ (detectQuestionType q = greeting -> detectQuestionType q' = greeting).
Proof.
  intros Hfactor. split.
  - intros item. rewrite !findRelevantData_filter, !filter_In.
    intros [Hin Hhit]. split; [exact Hin|].
    exact (keywordHit_factor _ _ item Hfactor Hhit).
  - rewrite !detectQuestionType_greeting, !orb_true_iff.
    pose proof (includes_factor _ _ (str "halo") Hfactor).
    pose proof (includes_factor _ _ (str "hai") Hfactor).
    pose proof (includes_factor _ _ (str "hello") Hfactor).
    tauto.
Qed.

Lemma longer_question_keeps_matches_witness :
  In econ_001 (findRelevantData (str "Data Ekonomi"))
  /\ In econ_001 (findRelevantData (str "Tolong, data ekonomi Medan")).
Proof.
  assert (H : In econ_001 (findRelevantData (str "Data Ekonomi")))
    by (vm_compute; left; reflexivity).
  split; [exact H|].
  refine (proj1 (longer_question_keeps_matches ascii_lowering ascii_lowering_stable
                   (str "Data Ekonomi") (str "Tolong, data ekonomi Medan") _)
                econ_001 H).
  exists (str "tolong, "), (str " medan"). vm_compute. reflexivity.
Defined.

(** X5: the reply that names a dataset.  For an intent outside the
    canned ones and a non-empty match list, the reply of both revisions
    contains the title and the description of the first match and,
    when there is a second match, the sentence on related data; the
    sources are the matches, one entry each, in order. *)
Theorem information_reply_names_first_match (question questionType : jsstring)
    (item : BPSDataItem) (rest : list BPSDataItem) :
  ~ In questionType cannedIntents ->
  exists text1 text2,
    Rev1.generatePersonalizedResponse question questionType (item :: rest) = Return text1
    /\ Rev2.generatePersonalizedResponse question questionType (item :: rest) = Return text2
    /\ includes text1 (title item) = true /\ includes text1 (description item) = true
    /\ includes text2 (title item) = true /\ includes text2 (description item) = true
    /\ (rest <> [] ->
        includes text1 (str "Berikut juga beberapa data terkait yang mungkin berguna:") = true
        /\ includes text2 (str "Berikut juga beberapa data terkait yang mungkin berguna:") = true)
    /\ sources questionType (item :: rest) = Some (toSource item :: map toSource rest).
Proof.
  intros Hout. destruct (not_canned_tests questionType Hout) as (Hg & Ht & Hi & Hl).
  unfold Rev1.generatePersonalizedResponse, Rev2.generatePersonalizedResponse.
  rewrite Hg, Ht, Hi, Hl.
  destruct rest as [|item' rest]; cbn [length Nat.ltb Nat.leb nth_error];
    do 2 eexists; (split; [reflexivity|]); (split; [reflexivity|]);
    (split; [find_factor|]); (split; [find_factor|]);
    (split; [find_factor|]); (split; [find_factor|]);
    (split; [|reflexivity]).
  - intros H. contradiction H. reflexivity.
  - intros _. split; find_factor.
Qed.

Lemma information_reply_names_first_match_witness :
  sources information [econ_001; edu_001] = Some [toSource econ_001; toSource edu_001].
Proof.
  destruct (information_reply_names_first_match [] information econ_001 [edu_001])
    as (text1 & text2 & _ & _ & _ & _ & _ & _ & _ & Hsources).
  - vm_compute. intuition discriminate.
  - exact Hsources.
Defined.


(** X7: what [getSuggestions] offers.  Whatever the lowering and the
    input, it returns between 1 and 8 suggestions, all different and all
    from its fixed list.  For an input shorter than 2 code units, such
    as the empty one, they are the first six of the list.  For a longer
    input they are exactly the suggestions whose lowered text contains
    the lowered input, if there is one, and the first four of the list
    if there is none. *)
Theorem getSuggestions_offer (L : Lowering) (input : jsstring) :
  1 <= length (getSuggestions input) <= 8
  /\ NoDup (getSuggestions input)
  /\ (forall s, In s (getSuggestions input) -> In s baseGeneralSuggestions)
  /\ (length input < 2 -> getSuggestions input = slice0 6 baseGeneralSuggestions)
  /\ (2 <= length input ->
      (exists s, In s baseGeneralSuggestions
                 /\ includes (toLowerCase s) (toLowerCase input) = true) ->
      forall s, In s (getSuggestions input) <->
                In s baseGeneralSuggestions
                /\ includes (toLowerCase s) (toLowerCase input) = true)
  /\ (2 <= length input ->
      (forall s, In s baseGeneralSuggestions ->
                 includes (toLowerCase s) (toLowerCase input) = false) ->
      getSuggestions input = slice0 4 baseGeneralSuggestions).
Proof.
  unfold getSuggestions.
  set (hit := fun suggestion => includes (toLowerCase suggestion) (toLowerCase input)).
  assert (Hshort : negb (truthy input) || (length input <? 2) = (length input <? 2)).
  { destruct input as [|c [|c' input]]; reflexivity. }
  rewrite Hshort.
  assert (H6 : length (slice0 6 baseGeneralSuggestions) = 6) by (vm_compute; reflexivity).
  assert (H4 : length (slice0 4 baseGeneralSuggestions) = 4) by (vm_compute; reflexivity).
  assert (Hmatching : length (filter hit baseGeneralSuggestions) <= 8).
  { etransitivity; [apply filter_length_le|]. vm_compute. repeat constructor. }
  destruct (length input <? 2) eqn:Hlen.
  - apply Nat.ltb_lt in Hlen. rewrite H6.
    split; [lia|]. split; [apply firstn_NoDup, baseGeneralSuggestions_NoDup|].
    split; [intros s; apply firstn_subset|].
    split; [reflexivity|]. split; intros; lia.
  - apply Nat.ltb_ge in Hlen.
    destruct (0 <? length (filter hit baseGeneralSuggestions)) eqn:Hsome.
    + apply Nat.ltb_lt in Hsome.
      split; [lia|]. split; [apply NoDup_filter, baseGeneralSuggestions_NoDup|].
      split; [intros s Hs; apply filter_In in Hs; tauto|]. split; [lia|]. split.
      * intros _ _ s. exact (filter_In hit s baseGeneralSuggestions).
      * intros _ Hnone. exfalso.
        destruct (filter hit baseGeneralSuggestions) as [|s rest] eqn:E;
          [simpl in Hsome; lia|].
        assert (Hs : In s (filter hit baseGeneralSuggestions))
          by (rewrite E; left; reflexivity).
        apply filter_In in Hs as [Hin Hhit].
        unfold hit in Hhit. rewrite (Hnone s Hin) in Hhit. discriminate Hhit.
    + apply Nat.ltb_ge in Hsome. rewrite H4. split; [lia|].
      split; [apply firstn_NoDup, baseGeneralSuggestions_NoDup|].
      split; [intros s; apply firstn_subset|]. split; [lia|]. split.
      * intros _ (s & Hin & Hhit). exfalso.
        assert (Hs : In s (filter hit baseGeneralSuggestions))
          by (apply filter_In; split; assumption).
        destruct (filter hit baseGeneralSuggestions); [destruct Hs | simpl in Hsome; lia].
      * reflexivity.
Qed.


